(** * AAA refactor tool (Python backend): request construction and dispatch

    A shallow embedding of [src/backend/aaa_analyzer.py] (the oracle client
    [AAAAnalyzer]) and [src/backend/server.py] (start-up and the
    [/analyze] endpoint [analyze_code]).

    Python values are modelled as follows.
    - [str] is [string]; f-string interpolation is concatenation.
    - A raised exception is a value of [exn]: its class and [str(e)].
      Classes form the builtin hierarchy below [Exception], so that
      [except SyntaxError] and [except Exception] select what they select
      in Python.  Process signals that are not [Exception]s
      ([KeyboardInterrupt], [SystemExit]) are asynchronous and outside this
      sequential model.
    - A computation is a function from the world (the trace of external
      effects performed so far) to an outcome ([Return] or [Raise]) and the
      new world.
    - The dict returned by the endpoint is a [gmap string string].
    - The libraries the code calls ([ast.parse], [ast.dump], the remote
      [generate_content]) are parameters of the development.  For the
      sources that have no logical line, [ast.parse] and [ast.dump] are
      also modelled, after CPython. *)

From Stdlib Require Import String Ascii List Bool Lia.
From stdpp Require Import base option strings gmap.

Local Open Scope string_scope.

(** ** Python exceptions *)

Module Py.

(** The exception classes the two modules can meet. *)
Inductive pyclass : Type :=
  | Exception
  | SyntaxError
  | IndentationError
  | TabError
  | ValueError
  | RuntimeError
  | RecursionError
  | MemoryError
  | OSError
  | TimeoutError.

#[global] Instance pyclass_eq_dec : EqDecision pyclass.
Proof. solve_decision. Defined.

(** Direct base class, as in the builtin hierarchy. *)
Definition base_of (c : pyclass) : option pyclass :=
  match c with
  | Exception => None
  | SyntaxError => Some Exception
  | IndentationError => Some SyntaxError
  | TabError => Some IndentationError
  | ValueError => Some Exception
  | RuntimeError => Some Exception
  | RecursionError => Some RuntimeError
  | MemoryError => Some Exception
  | OSError => Some Exception
  | TimeoutError => Some OSError
  end.

(** [issubclass_fuel n c d]: [d] is reached from [c] in at most [n] steps
    along [base_of]. *)
Fixpoint issubclass_fuel (n : nat) (c d : pyclass) : bool :=
  if decide (c = d) then true
  else match n with
       | O => false
       | S n' => match base_of c with
                 | Some b => issubclass_fuel n' b d
                 | None => false
                 end
       end.

(** The hierarchy above has depth 3 below [Exception]. *)
Definition issubclass (c d : pyclass) : bool := issubclass_fuel 3 c d.

(** An exception instance: its class and the text [str(e)] yields. *)
Record exn : Type := mk_exn { exn_class : pyclass; exn_str : string }.

Definition isinstance (e : exn) (c : pyclass) : bool :=
  issubclass (exn_class e) c.

(** Outcome of evaluating an expression or a call. *)
Inductive result (A : Type) : Type :=
  | Return (a : A)
  | Raise (e : exn).
Arguments Return {A} a.
Arguments Raise {A} e.

End Py.
Import Py.

(** ** Computations over the world *)

(** An external effect.  [Formatted] marks the evaluation of the f-string
    that assembles the request envelope (it has no counterpart on stdout
    or on the network; it is recorded so that "an envelope was built" can be
    stated).  [Generated] is one call of the remote
    [GenerativeModel.generate_content]. *)
Inductive event : Type :=
  | Printed (line : string)
  | Configured (api_key : string)
  | Formatted (payload : string)
  | Generated (model_name system_instruction contents : string).

(** The trace of effects so far, oldest first. *)
Definition world : Type := list event.

Definition M (A : Type) : Type := world -> result A * world.

Definition ret {A} (a : A) : M A := fun w => (Return a, w).

Definition raise {A} (e : exn) : M A := fun w => (Raise e, w).

Definition bind {A B} (m : M A) (k : A -> M B) : M B :=
  fun w => match m w with
           | (Return a, w') => k a w'
           | (Raise e, w') => (Raise e, w')
           end.

(** A pure library call that may raise. *)
Definition lift {A} (r : result A) : M A := fun w => (r, w).

Definition emit (ev : event) : M unit :=
  fun w => (Return tt, (w ++ [ev])%list).

(** [try: body except cls as e: handler e]. *)
Definition try_except {A} (body : M A) (cls : pyclass) (handler : exn -> M A)
  : M A :=
  fun w => match body w with
           | (Return a, w') => (Return a, w')
           | (Raise e, w') =>
               if isinstance e cls then handler e w' else (Raise e, w')
           end.

Notation "x <- m ;; k" := (bind m (fun x => k))
  (at level 100, m at next level, right associativity).
Notation "m ;;; k" := (bind m (fun _ => k))
  (at level 100, right associativity).

Definition is_request (ev : event) : option string :=
  match ev with
  | Generated _ _ contents => Some contents
  | _ => None
  end.

Definition is_envelope (ev : event) : option string :=
  match ev with
  | Formatted payload => Some payload
  | _ => None
  end.

(** The contents sent to the remote backend, read off a trace. *)
Definition oracle_calls (w : world) : list string := omap is_request w.

(** The envelopes built, read off a trace. *)
Definition envelopes_built (w : world) : list string := omap is_envelope w.

(** ** What the code imports from [google.generativeai] *)

(** The object [generate_content] returns has a property [text], and
    reading it may raise. *)
Record GenerateContentResponse : Type := { text : result string }.

Record GenerativeModel : Type :=
  { model_name : string; system_instruction : string }.

Record AAAAnalyzer : Type := { model : GenerativeModel }.

(** ** The endpoint's response dict *)

(** [{"message": m, "analysis_result": r}] *)
Definition response (m r : string) : gmap string string :=
  <["analysis_result" := r]> (<["message" := m]> ∅).

Definition LF : string := String "010" EmptyString.

(** The f-string of [server.py], lines 60-72. *)
Definition formatted_input (code ast_string : string) : string :=
  LF +:+ "    <test_code>" +:+ LF +:+
  "    " +:+ code +:+ LF +:+
  "    </test_code>" +:+ LF +:+
  LF +:+
  "    <ast>" +:+ LF +:+
  "    " +:+ ast_string +:+ LF +:+
  "    </ast>" +:+ LF +:+
  "    " +:+ LF +:+
  "    <<production_code>" +:+ LF +:+
  "    # Not provided in this context" +:+ LF +:+
  "    </production_code>" +:+ LF +:+
  "    ".

(** Truthiness of an optional [str]: [None] and the empty string are
    falsy. *)
Definition truthy (s : option string) : bool :=
  match s with
  | None => false
  | Some EmptyString => false
  | Some (String _ _) => true
  end.

Section Backend.

(** [ast]: the tree type, [ast.parse(source)] and [ast.dump(tree, indent)]. *)
Variable AST : Type.
Variable ast_parse : string -> result AST.
Variable ast_dump : AST -> nat -> result string.

(** The remote service: what a call returns may depend on everything that
    happened before it. *)
Variable remote : world -> GenerativeModel -> string ->
                  result GenerateContentResponse.

(** The class attribute [AAAAnalyzer.SYSTEM_PROMPT], a constant text. *)
Variable SYSTEM_PROMPT : string.

(** [GenerativeModel.generate_content(contents)] *)
Definition generate_content (m : GenerativeModel) (contents : string)
  : M GenerateContentResponse :=
  fun w => (remote w m contents,
            (w ++ [Generated (model_name m) (system_instruction m)
                             contents])%list).

(** *** aaa_analyzer.py *)

(** [AAAAnalyzer.__init__(self, api_key, model_name)] *)
Definition AAAAnalyzer_init (api_key : option string) (name : string)
  : M AAAAnalyzer :=
  if negb (truthy api_key) then
    raise (mk_exn ValueError "API Key is required for AAAAnalyzer")
  else
    emit (Configured (default EmptyString api_key)) ;;;
    ret {| model := {| model_name := name;
                       system_instruction := SYSTEM_PROMPT |} |}.

(** [AAAAnalyzer.analyze(self, formatted_test_case)] *)
Definition analyze (self : AAAAnalyzer) (formatted_test_case : string)
  : M string :=
  try_except
    (resp <- generate_content (model self) formatted_test_case ;;
     lift (text resp))
    Exception
    (fun e => ret ("<analysis><error>Gemini API Failed: " +:+ exn_str e
                   +:+ "</error></analysis>")).

(** *** server.py *)

(** Module level, lines 11-17: the environment after [load_dotenv()] is
    [environ]. *)
Definition startup (environ : gmap string string) : M AAAAnalyzer :=
  let api_key := environ !! "GEMINI_API_KEY" in
  if negb (truthy api_key) then
    raise (mk_exn ValueError "❌ No API Key found! Check your .env file.")
  else
    AAAAnalyzer_init api_key "gemini-3-flash-preview".

(** Step 1 of [analyze_code]: the first [try] block.  [inr] is the early
    [return] of the [except SyntaxError] clause. *)
Definition generate_ast (code : string) : M (string + gmap string string) :=
  try_except
    (tree <- lift (ast_parse code) ;;
     ast_string <- lift (ast_dump tree 2) ;;
     ret (inl ast_string))
    SyntaxError
    (fun _ => ret (inr (response "❌ Syntax Error"
        "<analysis><error>Invalid Python Code</error></analysis>"))).

(** [analyze_code(snippet)], with the client's [analyze] method as a
    parameter: the handler calls whatever the global [analyzer] is. *)
Definition analyze_code_with (analyzer_analyze : string -> M string)
    (code : string) : M (gmap string string) :=
  emit (Printed "Received code for analysis...") ;;;
  step1 <- generate_ast code ;;
  match step1 with
  | inr report => ret report
  | inl ast_string =>
      payload <- (emit (Formatted (formatted_input code ast_string)) ;;;
                  ret (formatted_input code ast_string)) ;;
      try_except
        (result <- analyzer_analyze payload ;;
         ret (response "✅ Analysis Complete" result))
        Exception
        (fun e => ret (response "❌ Analysis Failed"
                                ("Error: " +:+ exn_str e)))
  end.

(** The endpoint as deployed: [analyzer] is an [AAAAnalyzer]. *)
Definition analyze_code (analyzer : AAAAnalyzer) (code : string)
  : M (gmap string string) :=
  analyze_code_with (analyze analyzer) code.

(** What the two library calls of step 1 yield together: the dump text, or
    the exception either of them raises. *)
Definition extract (code : string) : result string :=
  match ast_parse code with
  | Return tree => ast_dump tree 2
  | Raise e => Raise e
  end.

(** What one use of the remote model yields: the text of the response, or
    the exception raised by the call or by reading [text]. *)
Definition remote_text (w : world) (m : GenerativeModel) (contents : string)
  : result string :=
  match remote w m contents with
  | Return resp => text resp
  | Raise e => Raise e
  end.

End Backend.

Arguments generate_ast {AST} ast_parse ast_dump code.
Arguments analyze_code_with {AST} ast_parse ast_dump analyzer_analyze code.
Arguments analyze_code {AST} ast_parse ast_dump remote analyzer code.
Arguments extract {AST} ast_parse ast_dump code.

(** ** The [ast] library on sources without a logical line

    A model of what the handler gets from [ast.parse(source)] and
    [ast.dump(tree, indent=2)], after CPython's tokenizer and [Lib/ast.py].
    Trees are generic: a node is its class name and its fields in the order
    of [_fields]. *)

#[warnings="-register-all"]
Inductive pyvalue : Type :=
  | Obj (cls : string) (fields : list (string * pyvalue))
  | Seq (items : list pyvalue)
  | Atom (repr : string)
  | PyNone
  | Unset.
(** [Obj] is an [ast.AST] instance, [Seq] a list, [Atom] any other object,
    given by its [repr]; [Unset] is [None] in a field whose class default
    is [None] (an optional field left out), [PyNone] is [None] elsewhere. *)

(** An [ast.AST] instance at the root: class name and fields. *)
Definition py_tree : Type := string * list (string * pyvalue).

(** [' ' * n] *)
Fixpoint spaces (n : nat) : string :=
  match n with
  | O => EmptyString
  | S n' => String " " (spaces n')
  end.

(** [sep.join(l)] *)
Fixpoint join (sep : string) (l : list string) : string :=
  match l with
  | [] => EmptyString
  | [x] => x
  | x :: l' => x +:+ sep +:+ join sep l'
  end.

(** [value is None or value == []] *)
Definition is_empty_value (value : pyvalue) : bool :=
  match value with
  | PyNone => true
  | Seq [] => true
  | _ => false
  end.

(** [isinstance(node, (Constant, MatchSingleton))] *)
Definition keeps_empty (cls : string) : bool :=
  bool_decide (cls = "Constant") || bool_decide (cls = "MatchSingleton").

(** The inner function [_format(node, level)] of [ast.dump], for
    [annotate_fields=True], [include_attributes=False] and an integer
    [indent]; it returns the text and whether it is simple.  [show_empty]
    is the option of Python 3.13 (default [False] there); the versions
    before it behave as with [show_empty=True].  The interpreter's
    recursion limit is not modelled. *)
Fixpoint format (show_empty : bool) (indent : nat) (node : pyvalue)
    (level : nat) {struct node} : string * bool :=
  let level := S level in
  let prefix := LF +:+ spaces (indent * level) in
  let sep := "," +:+ prefix in
  match node with
  | Obj cls fields =>
      let args :=
        (fix each (fs : list (string * pyvalue)) : list (string * bool) :=
           match fs with
           | [] => []
           | (name, value) :: fs' =>
               match value with
               | Unset => each fs'
               | _ =>
                   if negb show_empty && is_empty_value value
                      && negb (keeps_empty cls)
                   then each fs'
                   else
                     let (text, simple) :=
                       format show_empty indent value level in
                     (name +:+ "=" +:+ text, simple) :: each fs'
               end
           end) fields in
      if forallb snd args && Nat.leb (List.length args) 3
      then (cls +:+ "(" +:+ join ", " (map fst args) +:+ ")",
            match args with [] => true | _ => false end)
      else (cls +:+ "(" +:+ prefix +:+ join sep (map fst args) +:+ ")",
            false)
  | Seq [] => ("[]", true)
  | Seq items =>
      ("[" +:+ prefix
       +:+ join sep (map (fun x => fst (format show_empty indent x level))
                         items)
       +:+ "]", false)
  | Atom repr => (repr, true)
  | PyNone => ("None", true)
  | Unset => ("None", true)
  end.

(** [ast.dump(tree, indent=indent)] *)
Definition py_dump (show_empty : bool) (tree : py_tree) (indent : nat)
  : result string :=
  Return (fst (format show_empty indent (Obj (fst tree) (snd tree)) 0)).

(** [Module(body=body, type_ignores=[])]: what [ast.parse] builds in mode
    [exec] without type comments. *)
Definition py_module (body : list pyvalue) : py_tree :=
  ("Module", [("body", Seq body); ("type_ignores", Seq [])]).

(** A source made of blanks and line breaks only: the tokenizer ignores
    blank lines, so there is no logical line in it. *)
Fixpoint no_logical_line (source : string) : bool :=
  match source with
  | EmptyString => true
  | String c source' =>
      (Ascii.eqb c " " || Ascii.eqb c "010") && no_logical_line source'
  end.

(** [ast.parse(source)].  The grammar starts with
    [file: [statements] ENDMARKER]; on a source without a logical line the
    statements are absent and the body is empty.  What the statement
    grammar makes of any other source is the parameter [statements]. *)
Definition py_parse (statements : string -> result (list pyvalue))
    (source : string) : result py_tree :=
  if no_logical_line source then Return (py_module [])
  else match statements source with
       | Return body => Return (py_module body)
       | Raise e => Raise e
       end.

(** The tree of [x = 1]. *)
Definition tree_of_assign : py_tree :=
  py_module
    [ Obj "Assign"
        [ ("targets",
           Seq [ Obj "Name" [("id", Atom "'x'"); ("ctx", Obj "Store" [])] ]);
          ("value", Obj "Constant" [("value", Atom "1"); ("kind", Unset)]);
          ("type_comment", Unset) ] ].

(** The dump of the empty module. *)
Definition empty_module_dump (show_empty : bool) : string :=
  if show_empty then "Module(body=[], type_ignores=[])" else "Module()".

(** The envelope of the empty source, written out. *)
Definition empty_envelope (show_empty : bool) : string :=
  LF +:+ "    <test_code>" +:+ LF +:+
  "    " +:+ LF +:+
  "    </test_code>" +:+ LF +:+
  LF +:+
  "    <ast>" +:+ LF +:+
  "    " +:+ empty_module_dump show_empty +:+ LF +:+
  "    </ast>" +:+ LF +:+
  "    " +:+ LF +:+
  "    <<production_code>" +:+ LF +:+
  "    # Not provided in this context" +:+ LF +:+
  "    </production_code>" +:+ LF +:+
  "    ".

(** ** Vocabulary of the specification *)

(** *** The shape of the oracle-facing envelope

    The specification fixes the envelope as three labelled sections in a
    fixed order.  A shape is a list of pieces: literal text, and gaps of
    layout (blanks and line breaks) whose extent is left free. *)

Fixpoint blank (s : string) : bool :=
  match s with
  | EmptyString => true
  | String c s' => Ascii.is_space c && blank s'
  end.

Inductive piece : Type :=
  | Gap
  | Lit (s : string).

(** [denotes ps s]: the text [s] is the pieces [ps] one after the other. *)
Fixpoint denotes (ps : list piece) (s : string) : Prop :=
  match ps with
  | [] => s = EmptyString
  | Gap :: ps' =>
      exists g r, blank g = true /\ s = g +:+ r /\ denotes ps' r
  | Lit l :: ps' => exists r, s = l +:+ r /\ denotes ps' r
  end.

(** [strip_prefix l s]: what follows [l] in [s], when [s] starts with [l]. *)
Fixpoint strip_prefix (l s : string) : option string :=
  match l with
  | EmptyString => Some s
  | String a l' =>
      match s with
      | EmptyString => None
      | String b s' => if Ascii.eqb a b then strip_prefix l' s' else None
      end
  end.

(** A backtracking matcher deciding [denotes]. *)
Fixpoint matches (ps : list piece) : string -> bool :=
  match ps with
  | [] => fun s => match s with EmptyString => true | _ => false end
  | Gap :: ps' =>
      fix skip (s : string) : bool :=
        matches ps' s
        || match s with
           | EmptyString => false
           | String c s' => Ascii.is_space c && skip s'
           end
  | Lit l :: ps' =>
      fun s => match strip_prefix l s with
               | Some r => matches ps' r
               | None => false
               end
  end.

(** The envelope of the specification (section 6): a [<test_code>] section
    holding the raw source, an [<ast>] section holding the structural dump,
    and a [<production_code>] placeholder section, in this order, each
    opened and closed by its tag. *)
Definition three_sections (source dump : string) : list piece :=
  [ Gap; Lit "<test_code>"; Gap; Lit source; Gap; Lit "</test_code>";
    Gap; Lit "<ast>"; Gap; Lit dump; Gap; Lit "</ast>";
    Gap; Lit "<production_code>"; Gap;
    Lit "# Not provided in this context"; Gap;
    Lit "</production_code>"; Gap ].

(** What [formatted_input] emits: the same pieces, and one more [<] in
    front of the third opening tag. *)
Definition emitted_sections (source dump : string) : list piece :=
  [ Gap; Lit "<test_code>"; Gap; Lit source; Gap; Lit "</test_code>";
    Gap; Lit "<ast>"; Gap; Lit dump; Gap; Lit "</ast>";
    Gap; Lit "<"; Lit "<production_code>"; Gap;
    Lit "# Not provided in this context"; Gap;
    Lit "</production_code>"; Gap ].

(** Reading a shape from the right: the text and every literal reversed,
    the pieces in reverse order. *)
Fixpoint reverse (s : string) : string :=
  match s with
  | EmptyString => EmptyString
  | String c s' => reverse s' +:+ String c EmptyString
  end.

Definition reverse_piece (p : piece) : piece :=
  match p with
  | Gap => Gap
  | Lit l => Lit (reverse l)
  end.

Fixpoint drop_blanks (s : string) : string :=
  match s with
  | EmptyString => EmptyString
  | String c s' => if Ascii.is_space c then drop_blanks s' else s
  end.

(** Stripping a literal from a text of which only the beginning [k] is
    known: what is left of [k], a clash inside [k], or [k] is too short to
    tell. *)
Inductive known : Type :=
  | Rest (k : string)
  | Clash
  | Short.

Fixpoint strip_known (l k : string) : known :=
  match l with
  | EmptyString => Rest k
  | String a l' =>
      match k with
      | EmptyString => Short
      | String b k' => if Ascii.eqb a b then strip_known l' k' else Clash
      end
  end.

Definition starts_solid (l : string) : bool :=
  match l with
  | EmptyString => false
  | String c _ => negb (Ascii.is_space c)
  end.

(** [clashes ps k]: no text that begins with [k] begins with the pieces
    [ps].  Gaps are followed through only where the next literal starts
    with a character that is not blank, so that the gap's extent is
    forced. *)
Fixpoint clashes (ps : list piece) (k : string) : bool :=
  match ps with
  | [] => false
  | Lit l :: ps' =>
      match strip_known l k with
      | Rest k' => clashes ps' k'
      | Clash => true
      | Short => false
      end
  | Gap :: ps' =>
      match ps' with
      | Lit l :: _ =>
          starts_solid l
          && match drop_blanks k with
             | EmptyString => false
             | String _ _ => clashes ps' (drop_blanks k)
             end
      | _ => false
      end
  end.

(** What [formatted_input] puts after the dump. *)
Definition envelope_tail : string :=
  LF +:+
  "    </ast>" +:+ LF +:+
  "    " +:+ LF +:+
  "    <<production_code>" +:+ LF +:+
  "    # Not provided in this context" +:+ LF +:+
  "    </production_code>" +:+ LF +:+
  "    ".

(** *** The oracle's error schema *)

(** An [<analysis>] document whose only element is [<error>], with the
    given body. *)
Definition error_document (body : string) : string :=
  "<analysis><error>" +:+ body +:+ "</error></analysis>".

Definition is_error_document (s : string) : Prop :=
  exists body, s = error_document body.

(** *** The response record *)

(** The three status texts of the endpoint. *)
Definition statuses : list string :=
  [ "✅ Analysis Complete"; "❌ Syntax Error"; "❌ Analysis Failed" ].

(** The status texts as the specification spells them. *)
Definition spec_statuses : list string :=
  [ "Analysis Complete"; "Syntax Error"; "Analysis Failed" ].

(** The response record of the specification (section 6): two fields,
    [status] and [result], the status being one of the three texts. *)
Definition spec_response_shape (rep : gmap string string) : Prop :=
  dom rep = ({[ "status"; "result" ]} : gset string) /\
  exists s, s ∈ spec_statuses /\ rep !! "status" = Some s.

(** The response record of the endpoint. *)
Definition response_shape (rep : gmap string string) : Prop :=
  dom rep = ({[ "message"; "analysis_result" ]} : gset string) /\
  exists s, s ∈ statuses /\ rep !! "message" = Some s.

(** *** Vocabulary for the further properties *)

(** What [formatted_input] puts between the source and the dump. *)
Definition section_break : string :=
  LF +:+ "    </test_code>" +:+ LF +:+ LF +:+ "    <ast>" +:+ LF +:+ "    ".

(** [bound_to name instruction ev]: if [ev] is a remote call, it was made on
    the model [name] with the system instruction [instruction]. *)
Definition bound_to (name instruction : string) (ev : event) : Prop :=
  match ev with
  | Generated n i _ => n = name /\ i = instruction
  | _ => True
  end.

(** ** Test doubles

    Stand-ins for the imported libraries, after the scenarios of the
    specification (section 8): a parser that knows a few sources, and
    oracles that answer or fail in a fixed way. *)

Module Double.

(** [ "-" * 100000 + "4" ]: a valid expression, nested too deep for the
    parser. *)
Definition deep_negation : string :=
  N.iter 100000 (String "-") "4".

Definition dump_of_empty : string := "Module(body=[], type_ignores=[])".

(** [ast.dump(ast.parse("x = 1"), indent=2)] *)
Definition dump_of_assign : string :=
  "Module(" +:+ LF +:+
  "  body=[" +:+ LF +:+
  "    Assign(" +:+ LF +:+
  "      targets=[" +:+ LF +:+
  "        Name(id='x', ctx=Store())]," +:+ LF +:+
  "      value=Constant(value=1))]," +:+ LF +:+
  "  type_ignores=[])".

(** The tree is represented by its dump.  On [deep_negation] the parser
    gives up with [MemoryError] (its stack overflows); unknown sources are
    syntax errors. *)
Definition parse (source : string) : result string :=
  if decide (source = EmptyString) then Return dump_of_empty
  else if decide (source = "x = 1") then Return dump_of_assign
  else if decide (source = deep_negation) then
    Raise (mk_exn MemoryError
             "Parser stack overflowed - Python source too complex to parse")
  else Raise (mk_exn SyntaxError "invalid syntax").

Definition dump (tree : string) (indent : nat) : result string := Return tree.

Definition good_aaa : string :=
  "<analysis><issueType>Good AAA</issueType></analysis>".

Definition oracle_good (w : world) (m : GenerativeModel) (contents : string)
  : result GenerateContentResponse :=
  Return {| text := Return good_aaa |}.

Definition oracle_timeout (w : world) (m : GenerativeModel)
    (contents : string) : result GenerateContentResponse :=
  Raise (mk_exn TimeoutError "timed out").

(** An oracle whose response carries no text: reading [text] raises. *)
Definition oracle_blocked (w : world) (m : GenerativeModel)
    (contents : string) : result GenerateContentResponse :=
  Return {| text := Raise (mk_exn ValueError "response has no text") |}.

(** A client that raises instead of returning. *)
Definition analyze_raising (formatted_test_case : string) : M string :=
  raise (mk_exn TimeoutError "timed out").

Definition prompt : string := "You are an expert software testing analyzer".

Definition analyzer : AAAAnalyzer :=
  {| model := {| model_name := "gemini-3-flash-preview";
                 system_instruction := prompt |} |}.

(** An environment that holds a credential. *)
Definition environ_with_key : gmap string string :=
  {[ "GEMINI_API_KEY" := "k-0" ]}.

End Double.

(** ** Properties *)

(** *** Exceptions and the monad *)

Lemma isinstance_Exception (e : exn) : isinstance e Exception = true.
Proof. destruct e as [c msg]; destruct c; reflexivity. Qed.

Lemma try_except_Exception {A} (body : M A) (handler : exn -> M A) (w : world) :
  try_except body Exception handler w =
  match body w with
  | (Return a, w') => (Return a, w')
  | (Raise e, w') => handler e w'
  end.
Proof.
  unfold try_except. destruct (body w) as [[a | e] w']; [reflexivity |].
  now rewrite isinstance_Exception.
Qed.

Lemma oracle_calls_app (w1 w2 : world) :
  oracle_calls (w1 ++ w2)%list = (oracle_calls w1 ++ oracle_calls w2)%list.
Proof. apply omap_app. Qed.

Lemma envelopes_built_app (w1 w2 : world) :
  envelopes_built (w1 ++ w2)%list = (envelopes_built w1 ++ envelopes_built w2)%list.
Proof. apply omap_app. Qed.

(** *** The matcher decides the shapes *)

Lemma append_nil_l (s : string) : EmptyString +:+ s = s.
Proof. reflexivity. Qed.

Lemma append_cons (a : ascii) (s t : string) :
  String a s +:+ t = String a (s +:+ t).
Proof. reflexivity. Qed.

Lemma strip_prefix_spec (l s r : string) :
  strip_prefix l s = Some r <-> s = l +:+ r.
Proof.
  revert s. induction l as [| a l IH]; intros s; simpl.
  - rewrite append_nil_l. split; [intros [= ->] | intros ->]; reflexivity.
  - rewrite append_cons. destruct s as [| b s].
    + split; discriminate.
    + destruct (Ascii.eqb_spec a b) as [-> | Hab].
      * rewrite IH. split; [intros -> | intros [= ->]]; reflexivity.
      * split; [discriminate | intros [= <- _]; contradiction].
Qed.

Lemma matches_denotes (ps : list piece) (s : string) :
  matches ps s = true <-> denotes ps s.
Proof.
  revert s. induction ps as [| p ps IH]; intros s.
  - simpl. destruct s; split; congruence.
  - destruct p as [| l].
    + induction s as [| c s IHs].
      * simpl. rewrite orb_false_r, IH. split.
        -- intros H. exists EmptyString, EmptyString. auto.
        -- intros (g & r & _ & Hs & Hr).
           destruct g; [| discriminate].
           rewrite append_nil_l in Hs. now subst r.
      * change (matches (Gap :: ps) (String c s))
          with (matches ps (String c s)
                || Ascii.is_space c && matches (Gap :: ps) s).
        rewrite orb_true_iff, andb_true_iff, IH, IHs. split.
        -- intros [H | [Hc (g & r & Hg & -> & Hr)]].
           ++ exists EmptyString, (String c s). auto.
           ++ exists (String c g), r. simpl. rewrite Hc, Hg. auto.
        -- intros (g & r & Hg & Hs & Hr). destruct g as [| c' g].
           ++ left. rewrite append_nil_l in Hs. now subst r.
           ++ right. rewrite append_cons in Hs. simpl in Hg.
              injection Hs as <- ->.
              apply andb_true_iff in Hg as [Hc Hg]. split; [exact Hc |].
              exists g, r. auto.
    + simpl. destruct (strip_prefix l s) as [r |] eqn:Hl.
      * apply strip_prefix_spec in Hl. rewrite IH. split.
        -- intros H. exists r. auto.
        -- intros (r' & Hs & Hr). rewrite Hl in Hs.
           apply String.app_inj in Hs. now subst r'.
      * split; [discriminate |]. intros (r & Hs & _).
        apply strip_prefix_spec in Hs. congruence.
Qed.

(** *** What the two modules compute *)

Section Properties.

Context {AST : Type}.
Context (ast_parse : string -> result AST).
Context (ast_dump : AST -> nat -> result string).
Context (remote : world -> GenerativeModel -> string ->
                  result GenerateContentResponse).
Context (SYSTEM_PROMPT : string).

Local Abbreviation generate_ast' := (generate_ast ast_parse ast_dump).
Local Abbreviation extract' := (extract ast_parse ast_dump).
Local Abbreviation analyze_code_with' := (analyze_code_with ast_parse ast_dump).
Local Abbreviation analyze_code' := (analyze_code ast_parse ast_dump remote).
Local Abbreviation analyze' := (analyze remote).
Local Abbreviation received := (Printed "Received code for analysis...").
Local Abbreviation sent self contents :=
  (Generated (model_name (model self)) (system_instruction (model self))
             contents).

Lemma generate_ast_eq (code : string) (w : world) :
  generate_ast' code w =
  (match extract' code with
   | Return ast_string => Return (inl ast_string)
   | Raise e =>
       if isinstance e SyntaxError
       then Return (inr (response "❌ Syntax Error"
                           (error_document "Invalid Python Code")))
       else Raise e
   end, w).
Proof.
  unfold generate_ast, extract, try_except, bind, lift, ret.
  destruct (ast_parse code) as [tree | e].
  - destruct (ast_dump tree 2) as [d | e]; [reflexivity |].
    destruct (isinstance e SyntaxError); reflexivity.
  - destruct (isinstance e SyntaxError); reflexivity.
Qed.

Lemma analyze_eq (self : AAAAnalyzer) (contents : string) (w : world) :
  analyze' self contents w =
  (Return match remote_text remote w (model self) contents with
          | Return s => s
          | Raise e => error_document ("Gemini API Failed: " +:+ exn_str e)
          end,
   (w ++ [sent self contents])%list).
Proof.
  unfold analyze. rewrite try_except_Exception.
  unfold bind, generate_content, lift, remote_text, ret.
  destruct (remote w (model self) contents) as [resp | e]; [| reflexivity].
  destruct (text resp); reflexivity.
Qed.

Lemma analyze_code_with_eq (analyzer_analyze : string -> M string)
    (code : string) (w : world) :
  analyze_code_with' analyzer_analyze code w =
  match extract' code with
  | Raise e =>
      (if isinstance e SyntaxError
       then Return (response "❌ Syntax Error"
                             (error_document "Invalid Python Code"))
       else Raise e,
       (w ++ [received])%list)
  | Return ast_string =>
      let payload := formatted_input code ast_string in
      match analyzer_analyze payload
              ((w ++ [received]) ++ [Formatted payload])%list with
      | (Return s, w') => (Return (response "✅ Analysis Complete" s), w')
      | (Raise e, w') =>
          (Return (response "❌ Analysis Failed" ("Error: " +:+ exn_str e)),
           w')
      end
  end.
Proof.
  unfold analyze_code_with, bind at 1 2. unfold emit at 1.
  rewrite generate_ast_eq.
  destruct (extract' code) as [d | e].
  - unfold bind at 1 2. unfold emit, ret at 1.
    rewrite try_except_Exception. unfold bind, ret.
    destruct (analyzer_analyze _ _) as [[s | e] w']; reflexivity.
  - destruct (isinstance e SyntaxError); reflexivity.
Qed.

Lemma analyze_code_eq (analyzer : AAAAnalyzer) (code : string) (w : world) :
  analyze_code' analyzer code w =
  match extract' code with
  | Raise e =>
      (if isinstance e SyntaxError
       then Return (response "❌ Syntax Error"
                             (error_document "Invalid Python Code"))
       else Raise e,
       (w ++ [received])%list)
  | Return ast_string =>
      let payload := formatted_input code ast_string in
      let w1 := ((w ++ [received]) ++ [Formatted payload])%list in
      (Return (response "✅ Analysis Complete"
                 match remote_text remote w1 (model analyzer) payload with
                 | Return s => s
                 | Raise e =>
                     error_document ("Gemini API Failed: " +:+ exn_str e)
                 end),
       (w1 ++ [sent analyzer payload])%list)
  end.
Proof.
  unfold analyze_code. rewrite analyze_code_with_eq.
  destruct (extract' code) as [d | e]; [| reflexivity].
  cbv zeta. now rewrite analyze_eq.
Qed.

Lemma extract_parse_error (code : string) (e : exn) :
  ast_parse code = Raise e -> extract' code = Raise e.
Proof. unfold extract. now intros ->. Qed.

Lemma response_lookup_message (m r : string) :
  response m r !! "message" = Some m.
Proof.
  unfold response. rewrite lookup_insert_ne by discriminate.
  apply lookup_insert_eq.
Qed.

Lemma response_lookup_result (m r : string) :
  response m r !! "analysis_result" = Some r.
Proof. unfold response. apply lookup_insert_eq. Qed.

Lemma response_dom (m r : string) :
  dom (response m r) = ({[ "message"; "analysis_result" ]} : gset string).
Proof. unfold response. rewrite !dom_insert_L. set_solver. Qed.

Lemma response_size (m r : string) : size (response m r) = 2.
Proof.
  unfold response. rewrite !map_size_insert_None, map_size_empty; auto.
Qed.

Lemma error_document_is_error (body : string) :
  is_error_document (error_document body).
Proof. now exists body. Qed.


(** *** The claims about the client and the endpoint *)

(** C3: a source the parser refuses with [SyntaxError] is answered by the
    syntax-error report; the handler has then only printed its log line:
    no envelope was built and nothing was sent to the oracle, whatever the
    oracle client is. *)
Theorem invalid_source_short_circuits (analyzer_analyze : string -> M string)
    (code : string) (e : exn) (w : world) :
  ast_parse code = Raise e ->
  isinstance e SyntaxError = true ->
  exists w',
    analyze_code_with' analyzer_analyze code w =
      (Return (response "❌ Syntax Error"
                 "<analysis><error>Invalid Python Code</error></analysis>"),
       w')
    /\ w' = (w ++ [received])%list
    /\ envelopes_built w' = envelopes_built w
    /\ oracle_calls w' = oracle_calls w.
Proof.
  intros Hparse He. exists (w ++ [received])%list.
  rewrite analyze_code_with_eq, (extract_parse_error _ _ Hparse), He.
  rewrite envelopes_built_app, oracle_calls_app. cbn [envelopes_built
    oracle_calls omap list_omap is_envelope is_request].
  rewrite !app_nil_r. auto.
Qed.

(** C4: when the remote call raises (in [generate_content] or on reading
    [text]), [analyze] returns, and what it returns is an [<analysis>]
    document with an [<error>] element that carries [str(e)]. *)
Theorem analyze_normalizes_failure (self : AAAAnalyzer) (contents : string)
    (w : world) (e : exn) :
  remote_text remote w (model self) contents = Raise e ->
  analyze' self contents w =
    (Return ("<analysis><error>Gemini API Failed: " +:+ exn_str e
             +:+ "</error></analysis>"),
     (w ++ [sent self contents])%list)
  /\ is_error_document ("<analysis><error>Gemini API Failed: " +:+ exn_str e
                        +:+ "</error></analysis>").
Proof.
  intros Hremote. rewrite analyze_eq, Hremote. split; [reflexivity |].
  exact (error_document_is_error ("Gemini API Failed: " +:+ exn_str e)).
Qed.

(** C5: with an absent or empty credential the constructor raises (Python's
    [ValueError] is the configuration error here) and yields no client on
    which [analyze] could be called; the module-level start-up of the
    server raises as well, before any client or route exists, and neither
    has had any effect. *)
Theorem missing_credential_is_fatal (api_key : option string) (name : string)
    (environ : gmap string string) (w : world) :
  api_key = None \/ api_key = Some EmptyString ->
  environ !! "GEMINI_API_KEY" = api_key ->
  AAAAnalyzer_init SYSTEM_PROMPT api_key name w =
    (Raise (mk_exn ValueError "API Key is required for AAAAnalyzer"), w)
  /\ startup SYSTEM_PROMPT environ w =
    (Raise (mk_exn ValueError "❌ No API Key found! Check your .env file."),
     w).
Proof.
  intros Hkey Henv. unfold startup, AAAAnalyzer_init. rewrite Henv.
  destruct Hkey as [-> | ->]; split; reflexivity.
Qed.

(** C8: [analyze] always returns a string, having made exactly one remote
    call; hence the endpoint as deployed never answers with the report of
    its second [except] clause. *)
Theorem analyze_total_failed_branch_dead (self : AAAAnalyzer)
    (contents code : string) (w : world) :
  (exists s, analyze' self contents w =
             (Return s, (w ++ [sent self contents])%list))
  /\ (forall body,
        fst (analyze_code' self code w)
        <> Return (response "❌ Analysis Failed" body)).
Proof.
  split.
  - rewrite analyze_eq. eauto.
  - intros body. rewrite analyze_code_eq.
    destruct (extract' code) as [d | e]; [| destruct (isinstance e _)];
      cbn [fst]; intros [= H];
      apply (f_equal (fun m => m !! "message")) in H;
      rewrite !response_lookup_message in H; discriminate.
Qed.

Lemma statuses_NoDup : NoDup statuses.
Proof.
  unfold statuses. rewrite !NoDup_cons, !elem_of_cons, !elem_of_nil.
  repeat split; try apply NoDup_nil_2; intros H; decompose [or] H;
    discriminate || contradiction.
Qed.

Lemma status_complete : "✅ Analysis Complete" ∈ statuses.
Proof. unfold statuses. repeat constructor. Qed.

Lemma status_syntax : "❌ Syntax Error" ∈ statuses.
Proof. unfold statuses. repeat constructor. Qed.

Lemma status_failed : "❌ Analysis Failed" ∈ statuses.
Proof. unfold statuses. repeat constructor. Qed.

Lemma response_has_shape (m r : string) :
  m ∈ statuses -> response_shape (response m r).
Proof.
  intros Hm. split; [apply response_dom |].
  exists m. split; [exact Hm | apply response_lookup_message].
Qed.

(** C2, amended: when structural extraction returns or raises
    [SyntaxError], the endpoint returns one record with exactly the two
    fields [message] and [analysis_result]; [message] is one of the three
    distinct texts of [statuses], and [analysis_result] is the fixed
    syntax-error document, the text the oracle client returned, or
    ["Error: "] followed by [str(e)] of what the client raised. *)
Theorem response_record_shape (analyzer_analyze : string -> M string)
    (code : string) (w : world) :
  (forall e, extract' code = Raise e -> isinstance e SyntaxError = true) ->
  exists status body w',
    analyze_code_with' analyzer_analyze code w =
      (Return (response status body), w')
    /\ dom (response status body)
       = ({[ "message"; "analysis_result" ]} : gset string)
    /\ size (response status body) = 2
    /\ response status body !! "message" = Some status
    /\ response status body !! "analysis_result" = Some body
    /\ NoDup statuses
    /\ status ∈ statuses
    /\ ((status = "❌ Syntax Error"
         /\ body = "<analysis><error>Invalid Python Code</error></analysis>")
        \/ (status = "✅ Analysis Complete"
            /\ exists payload w1, fst (analyzer_analyze payload w1)
                                  = Return body)
        \/ (status = "❌ Analysis Failed"
            /\ exists payload w1 e,
                 fst (analyzer_analyze payload w1) = Raise e
                 /\ body = "Error: " +:+ exn_str e)).
Proof.
  intros Hcontained.
  assert (Hfields : forall m r,
    dom (response m r) = ({[ "message"; "analysis_result" ]} : gset string)
    /\ size (response m r) = 2
    /\ response m r !! "message" = Some m
    /\ response m r !! "analysis_result" = Some r
    /\ NoDup statuses).
  { intros m r. split; [apply response_dom |].
    split; [apply response_size |].
    split; [apply response_lookup_message |].
    split; [apply response_lookup_result | apply statuses_NoDup]. }
  rewrite analyze_code_with_eq.
  destruct (extract' code) as [d | e] eqn:Hextract.
  - cbv zeta.
    destruct (analyzer_analyze _ _) as [[s | e] w'] eqn:Hcall.
    + exists "✅ Analysis Complete", s, w'.
      split; [reflexivity |]. destruct (Hfields "✅ Analysis Complete" s)
        as (? & ? & ? & ? & ?). repeat (split; [assumption |]).
      split; [apply status_complete |].
      right; left. split; [reflexivity |]. eexists _, _.
      rewrite Hcall. reflexivity.
    + exists "❌ Analysis Failed", ("Error: " +:+ exn_str e), w'.
      split; [reflexivity |].
      destruct (Hfields "❌ Analysis Failed" ("Error: " +:+ exn_str e))
        as (? & ? & ? & ? & ?). repeat (split; [assumption |]).
      split; [apply status_failed |].
      right; right. split; [reflexivity |]. eexists _, _, e.
      rewrite Hcall. auto.
  - rewrite (Hcontained e eq_refl).
    exists "❌ Syntax Error", (error_document "Invalid Python Code"),
      (w ++ [received])%list.
    split; [reflexivity |].
    destruct (Hfields "❌ Syntax Error" (error_document "Invalid Python Code"))
      as (? & ? & ? & ? & ?). repeat (split; [assumption |]).
    split; [apply status_syntax |].
    left. split; reflexivity.
Qed.

(** C7, amended: the endpoint maps a [SyntaxError] of structural extraction
    to the syntax-error report and anything the oracle client raises to the
    "Analysis Failed" report, and otherwise answers "Analysis Complete";
    an exception of structural extraction that is not a [SyntaxError] is
    not caught and leaves the endpoint. *)
Theorem dispatch_failure_mapping (analyzer_analyze : string -> M string)
    (code : string) (w : world) :
  (forall e, extract' code = Raise e -> isinstance e SyntaxError = true ->
     analyze_code_with' analyzer_analyze code w =
       (Return (response "❌ Syntax Error"
                  "<analysis><error>Invalid Python Code</error></analysis>"),
        (w ++ [received])%list))
  /\ (forall ast_string e w',
        extract' code = Return ast_string ->
        analyzer_analyze (formatted_input code ast_string)
          ((w ++ [received]) ++ [Formatted (formatted_input code ast_string)])%list
          = (Raise e, w') ->
        analyze_code_with' analyzer_analyze code w =
          (Return (response "❌ Analysis Failed" ("Error: " +:+ exn_str e)),
           w'))
  /\ (forall ast_string s w',
        extract' code = Return ast_string ->
        analyzer_analyze (formatted_input code ast_string)
          ((w ++ [received]) ++ [Formatted (formatted_input code ast_string)])%list
          = (Return s, w') ->
        analyze_code_with' analyzer_analyze code w =
          (Return (response "✅ Analysis Complete" s), w'))
  /\ (forall e, extract' code = Raise e -> isinstance e SyntaxError = false ->
        analyze_code_with' analyzer_analyze code w =
          (Raise e, (w ++ [received])%list))
  /\ ((exists rep w', analyze_code_with' analyzer_analyze code w
                      = (Return rep, w') /\ response_shape rep)
      <-> (forall e, extract' code = Raise e ->
                     isinstance e SyntaxError = true)).
Proof.
  rewrite analyze_code_with_eq. repeat split.
  - intros e -> ->. reflexivity.
  - intros d e w' -> Hcall. cbv zeta. now rewrite Hcall.
  - intros d s w' -> Hcall. cbv zeta. now rewrite Hcall.
  - intros e -> ->. reflexivity.
  - intros (rep & w' & Hrun & _) e He. rewrite He in Hrun.
    destruct (isinstance e SyntaxError); [reflexivity | discriminate].
  - intros Hcontained. destruct (extract' code) as [d | e].
    + cbv zeta. destruct (analyzer_analyze _ _) as [[s | e] w'];
        eexists _, _; (split; [reflexivity |]);
        apply response_has_shape;
        [apply status_complete | apply status_failed].
    + rewrite (Hcontained e eq_refl). eexists _, _. split; [reflexivity |].
      apply response_has_shape, status_syntax.
Qed.

(** C10: the syntax-error report carries the fixed document
    [<analysis><error>Invalid Python Code</error></analysis>]; a failure of
    the remote call is reported with a document of the same
    [<analysis><error>] form, in a record with the same two fields; the two
    reports differ in their [message]. *)
Theorem error_reports_share_schema (analyzer : AAAAnalyzer)
    (bad good ast_string : string) (e1 e2 : exn) (w1 w2 : world) :
  ast_parse bad = Raise e1 ->
  isinstance e1 SyntaxError = true ->
  extract' good = Return ast_string ->
  remote_text remote
    ((w2 ++ [received]) ++ [Formatted (formatted_input good ast_string)])%list
    (model analyzer) (formatted_input good ast_string) = Raise e2 ->
  exists rep1 rep2 r2,
    fst (analyze_code' analyzer bad w1) = Return rep1
    /\ fst (analyze_code' analyzer good w2) = Return rep2
    /\ rep1 !! "analysis_result"
       = Some "<analysis><error>Invalid Python Code</error></analysis>"
    /\ rep2 !! "analysis_result" = Some r2
    /\ is_error_document
         "<analysis><error>Invalid Python Code</error></analysis>"
    /\ is_error_document r2
    /\ dom rep1 = dom rep2
    /\ rep1 !! "message" = Some "❌ Syntax Error"
    /\ rep2 !! "message" = Some "✅ Analysis Complete"
    /\ rep1 !! "message" <> rep2 !! "message".
Proof.
  intros Hparse He1 Hgood Hremote. rewrite !analyze_code_eq.
  rewrite (extract_parse_error _ _ Hparse), He1, Hgood. cbv zeta.
  rewrite Hremote. cbn [fst]. eexists _, _, _.
  split; [reflexivity |]. split; [reflexivity |].
  rewrite !response_lookup_result, !response_lookup_message, !response_dom.
  split; [reflexivity |]. split; [reflexivity |].
  split; [exact (error_document_is_error "Invalid Python Code") |].
  split; [apply error_document_is_error |].
  split; [reflexivity |]. split; [reflexivity |]. split; [reflexivity |].
  discriminate.
Qed.

End Properties.

(** *** The envelope *)

Local Ltac gap g := exists g; eexists; split; [reflexivity | split; [reflexivity |]].
Local Ltac lit := eexists; split; [reflexivity |].

(** What the f-string emits, for every source and dump: the three sections
    in order, the raw source and the dump verbatim between their tags, and
    a second [<] in front of [<production_code>]. *)
Lemma formatted_input_emitted_sections (code ast_string : string) :
  denotes (emitted_sections code ast_string)
          (formatted_input code ast_string).
Proof.
  unfold emitted_sections, formatted_input. cbn [denotes].
  gap (LF +:+ "    "). lit. gap (LF +:+ "    "). lit.
  gap (LF +:+ "    "). lit. gap (LF +:+ LF +:+ "    "). lit.
  gap (LF +:+ "    "). lit. gap (LF +:+ "    "). lit.
  gap (LF +:+ "    " +:+ LF +:+ "    "). lit. lit.
  gap (LF +:+ "    "). lit. gap (LF +:+ "    "). lit.
  gap (LF +:+ "    "). reflexivity.
Qed.

(** **** Reading the envelope from the right *)

Lemma append_nil_r (s : string) : s +:+ EmptyString = s.
Proof. induction s as [| c s IH]; [reflexivity |]. now rewrite append_cons, IH. Qed.

Lemma append_assoc (s t u : string) : (s +:+ t) +:+ u = s +:+ t +:+ u.
Proof.
  induction s as [| c s IH]; [reflexivity |]. now rewrite !append_cons, IH.
Qed.

Lemma reverse_append (s t : string) :
  reverse (s +:+ t) = reverse t +:+ reverse s.
Proof.
  induction s as [| c s IH].
  - now rewrite append_nil_l, append_nil_r.
  - rewrite append_cons. cbn [reverse]. now rewrite IH, append_assoc.
Qed.

Lemma blank_append (s t : string) : blank (s +:+ t) = blank s && blank t.
Proof.
  induction s as [| c s IH]; [reflexivity |].
  rewrite append_cons. cbn [blank]. now rewrite IH, andb_assoc.
Qed.

Lemma blank_reverse (s : string) : blank (reverse s) = blank s.
Proof.
  induction s as [| c s IH]; [reflexivity |].
  cbn [reverse]. rewrite blank_append, IH. cbn [blank].
  rewrite andb_true_r. apply andb_comm.
Qed.

Lemma denotes_app (ps qs : list piece) (s : string) :
  denotes (ps ++ qs) s <->
  exists s1 s2, s = s1 +:+ s2 /\ denotes ps s1 /\ denotes qs s2.
Proof.
  revert s. induction ps as [| p ps IH]; intros s.
  - cbn [app denotes]. split.
    + intros H. exists EmptyString, s. auto.
    + intros (s1 & s2 & -> & -> & H). exact H.
  - destruct p as [| l]; cbn [app denotes]; split.
    + intros (g & r & Hg & -> & Hr). apply IH in Hr as (s1 & s2 & -> & H1 & H2).
      exists (g +:+ s1), s2. rewrite append_assoc. split; [reflexivity |].
      split; [| exact H2]. exists g, s1. auto.
    + intros (s1 & s2 & -> & (g & r & Hg & -> & Hr) & H2).
      exists g, (r +:+ s2). rewrite append_assoc. split; [exact Hg |].
      split; [reflexivity |]. apply IH. exists r, s2. auto.
    + intros (r & -> & Hr). apply IH in Hr as (s1 & s2 & -> & H1 & H2).
      exists (l +:+ s1), s2. rewrite append_assoc. split; [reflexivity |].
      split; [| exact H2]. exists s1. auto.
    + intros (s1 & s2 & -> & (r & -> & Hr) & H2).
      exists (r +:+ s2). rewrite append_assoc. split; [reflexivity |].
      apply IH. exists r, s2. auto.
Qed.

Lemma denotes_reverse (ps : list piece) (s : string) :
  denotes ps s -> denotes (rev (map reverse_piece ps)) (reverse s).
Proof.
  revert s. induction ps as [| p ps IH]; intros s.
  - cbn. now intros ->.
  - cbn [map rev]. rewrite denotes_app. destruct p as [| l]; cbn [denotes].
    + intros (g & r & Hg & -> & Hr). rewrite reverse_append.
      exists (reverse r), (reverse g). split; [reflexivity |].
      split; [now apply IH |]. exists (reverse g), EmptyString.
      now rewrite blank_reverse, append_nil_r.
    + intros (r & -> & Hr). rewrite reverse_append.
      exists (reverse r), (reverse l). split; [reflexivity |].
      split; [now apply IH |]. exists EmptyString.
      now rewrite append_nil_r.
Qed.

Lemma strip_known_rest (l k k' : string) :
  strip_known l k = Rest k' -> k = l +:+ k'.
Proof.
  revert k. induction l as [| a l IH]; intros k; cbn [strip_known].
  - now intros [= ->].
  - destruct k as [| b k]; [discriminate |].
    destruct (Ascii.eqb_spec a b) as [-> | _]; [| discriminate].
    intros H. now rewrite append_cons, <- (IH _ H).
Qed.

Lemma strip_known_clash (l k z r : string) :
  strip_known l k = Clash -> k +:+ z <> l +:+ r.
Proof.
  revert k. induction l as [| a l IH]; intros k; cbn [strip_known].
  - discriminate.
  - destruct k as [| b k]; [discriminate |].
    rewrite !append_cons.
    destruct (Ascii.eqb_spec a b) as [-> | Hab].
    + intros H [= Heq]. exact (IH _ H Heq).
    + intros _ [= Heq _]. now apply Hab.
Qed.

Lemma drop_blanks_forced (k z g t : string) (a : ascii) :
  blank g = true ->
  Ascii.is_space a = false ->
  drop_blanks k <> EmptyString ->
  k +:+ z = g +:+ String a t ->
  String a t = drop_blanks k +:+ z.
Proof.
  intros Hg Ha. revert g Hg. induction k as [| b k IH]; intros g Hg Hk Heq.
  - now contradict Hk.
  - rewrite append_cons in Heq. cbn [drop_blanks] in *.
    destruct g as [| b' g].
    + rewrite append_nil_l in Heq. injection Heq as -> <-.
      now rewrite Ha, append_cons.
    + rewrite append_cons in Heq. injection Heq as <- Heq.
      cbn [blank] in Hg. apply andb_true_iff in Hg as [Hb Hg].
      rewrite Hb in *. now apply (IH g).
Qed.

Lemma clashes_sound (ps rest : list piece) (k z : string) :
  clashes ps k = true -> ~ denotes (ps ++ rest) (k +:+ z).
Proof.
  revert k. induction ps as [| p ps IH]; intros k; [discriminate |].
  destruct p as [| l]; cbn [clashes app denotes].
  - destruct ps as [| [| l] ps]; try discriminate.
    intros Hc (g & r & Hg & Heq & Hr).
    apply andb_true_iff in Hc as [Hl Hc].
    destruct l as [| a l]; [discriminate |].
    cbn [starts_solid] in Hl. apply negb_true_iff in Hl.
    cbn [app denotes] in Hr. destruct Hr as (r' & -> & Hr).
    rewrite append_cons in Heq.
    assert (Hk : drop_blanks k <> EmptyString)
      by (destruct (drop_blanks k); [discriminate | discriminate]).
    assert (Hc' : clashes (Lit (String a l) :: ps) (drop_blanks k) = true)
      by (destruct (drop_blanks k); [discriminate | exact Hc]).
    apply (IH _ Hc'). cbn [app denotes]. exists r'.
    rewrite <- (drop_blanks_forced _ _ _ _ _ Hg Hl Hk Heq).
    now rewrite append_cons.
  - destruct (strip_known l k) as [k' | |] eqn:Hs; try discriminate.
    + intros Hc (r & Heq & Hr). apply strip_known_rest in Hs as ->.
      rewrite append_assoc in Heq. apply String.app_inj in Heq as <-.
      exact (IH _ Hc Hr).
    + intros _ (r & Heq & _). exact (strip_known_clash _ _ _ _ Hs Heq).
Qed.

Lemma formatted_input_tail (code ast_string : string) :
  formatted_input code ast_string =
  (LF +:+ "    <test_code>" +:+ LF +:+ "    " +:+ code +:+ LF +:+
   "    </test_code>" +:+ LF +:+ LF +:+ "    <ast>" +:+ LF +:+ "    " +:+
   ast_string) +:+ envelope_tail.
Proof.
  unfold formatted_input, envelope_tail. now rewrite !append_assoc.
Qed.

(** C1: for every source and dump, the envelope built is the emitted
    shape, with a stray [<] in front of the third opening tag, and is not
    the three labelled sections of the specification: read from the right,
    [<production_code>] is preceded by [<], not by the layout that follows
    [</ast>]. *)
Theorem formatted_input_stray_bracket (code ast_string : string) :
  denotes (emitted_sections code ast_string)
          (formatted_input code ast_string)
  /\ ~ denotes (three_sections code ast_string)
               (formatted_input code ast_string).
Proof.
  split; [apply formatted_input_emitted_sections |].
  intros H. apply denotes_reverse in H.
  rewrite formatted_input_tail, reverse_append in H.
  revert H.
  change (rev (map reverse_piece (three_sections code ast_string)))
    with ([ Gap; Lit (reverse "</production_code>"); Gap;
            Lit (reverse "# Not provided in this context"); Gap;
            Lit (reverse "<production_code>"); Gap; Lit (reverse "</ast>") ]
          ++ [ Gap; Lit (reverse ast_string); Gap; Lit (reverse "<ast>");
               Gap; Lit (reverse "</test_code>"); Gap; Lit (reverse code);
               Gap; Lit (reverse "<test_code>"); Gap ])%list.
  apply clashes_sound. vm_compute. reflexivity.
Qed.

(** The same at the source [x = 1] and its dump, by running the matcher. *)
Example formatted_input_at_assign :
  matches (emitted_sections "x = 1" Double.dump_of_assign)
          (formatted_input "x = 1" Double.dump_of_assign) = true
  /\ matches (three_sections "x = 1" Double.dump_of_assign)
             (formatted_input "x = 1" Double.dump_of_assign) = false.
Proof. split; vm_compute; reflexivity. Qed.

(** *** The empty source *)

(** The model of [ast.dump] gives the documented text on the tree of
    [x = 1], under either convention for empty fields. *)
Example py_dump_assign :
  py_dump true tree_of_assign 2 = Return Double.dump_of_assign
  /\ py_dump false tree_of_assign 2 =
     Return ("Module(" +:+ LF +:+
             "  body=[" +:+ LF +:+
             "    Assign(" +:+ LF +:+
             "      targets=[" +:+ LF +:+
             "        Name(id='x', ctx=Store())]," +:+ LF +:+
             "      value=Constant(value=1))])").
Proof. split; vm_compute; reflexivity. Qed.

(** C9: on the empty source structural extraction succeeds: the parser
    yields the empty module and its dump is [Module(body=[],
    type_ignores=[])] (or [Module()] from Python 3.13 on).  The handler
    has no guard on empty input: it builds the envelope written out in
    [empty_envelope], sends exactly that envelope to the oracle once, and
    answers "Analysis Complete", not "Syntax Error"; this holds whatever
    the statement grammar and the oracle do. *)
Theorem empty_source_is_analyzed
    (statements : string -> result (list pyvalue)) (show_empty : bool)
    (remote : world -> GenerativeModel -> string ->
              result GenerateContentResponse)
    (analyzer : AAAAnalyzer) (w : world) :
  extract (py_parse statements) (py_dump show_empty) EmptyString
  = Return (empty_module_dump show_empty)
  /\ exists result,
       analyze_code (py_parse statements) (py_dump show_empty) remote
         analyzer EmptyString w =
         (Return (response "✅ Analysis Complete" result),
          (w ++ [ Printed "Received code for analysis...";
                  Formatted (empty_envelope show_empty);
                  Generated (model_name (model analyzer))
                    (system_instruction (model analyzer))
                    (empty_envelope show_empty) ])%list)
       /\ response "✅ Analysis Complete" result !! "message"
          <> Some "❌ Syntax Error"
       /\ envelopes_built
            (snd (analyze_code (py_parse statements) (py_dump show_empty)
                    remote analyzer EmptyString w))
          = (envelopes_built w ++ [empty_envelope show_empty])%list
       /\ oracle_calls
            (snd (analyze_code (py_parse statements) (py_dump show_empty)
                    remote analyzer EmptyString w))
          = (oracle_calls w ++ [empty_envelope show_empty])%list.
Proof.
  assert (Hextract :
    extract (py_parse statements) (py_dump show_empty) EmptyString
    = Return (empty_module_dump show_empty))
    by (destruct show_empty; reflexivity).
  assert (Henvelope :
    formatted_input EmptyString (empty_module_dump show_empty)
    = empty_envelope show_empty) by reflexivity.
  split; [exact Hextract |].
  rewrite analyze_code_eq, Hextract. cbv zeta. rewrite Henvelope.
  eexists. rewrite <- !app_assoc. split; [reflexivity |].
  rewrite response_lookup_message. split; [discriminate |].
  cbn [snd]. rewrite envelopes_built_app, oracle_calls_app. split; reflexivity.
Qed.

(** ** The claims at the test doubles *)

Local Abbreviation received := (Printed "Received code for analysis...").

(** The scenarios of the specification, run. *)

Example scenario_complete :
  analyze_code Double.parse Double.dump Double.oracle_good Double.analyzer
    "x = 1" [] =
  (Return (response "✅ Analysis Complete" Double.good_aaa),
   [ received;
     Formatted (formatted_input "x = 1" Double.dump_of_assign);
     Generated "gemini-3-flash-preview" Double.prompt
       (formatted_input "x = 1" Double.dump_of_assign) ]).
Proof. vm_compute. reflexivity. Qed.

Example scenario_syntax_error :
  analyze_code Double.parse Double.dump Double.oracle_good Double.analyzer
    "def test(:" [] =
  (Return (response "❌ Syntax Error"
             "<analysis><error>Invalid Python Code</error></analysis>"),
   [ received ]).
Proof. vm_compute. reflexivity. Qed.

Example scenario_client_raises :
  fst (analyze_code_with Double.parse Double.dump Double.analyze_raising
         "x = 1" []) =
  Return (response "❌ Analysis Failed" "Error: timed out").
Proof. vm_compute. reflexivity. Qed.

Example scenario_remote_times_out :
  fst (analyze_code Double.parse Double.dump Double.oracle_timeout
         Double.analyzer "x = 1" []) =
  Return (response "✅ Analysis Complete"
            "<analysis><error>Gemini API Failed: timed out</error></analysis>").
Proof. vm_compute. reflexivity. Qed.

Example scenario_response_without_text :
  fst (analyze Double.oracle_blocked Double.analyzer "<test_code>" []) =
  Return
    "<analysis><error>Gemini API Failed: response has no text</error></analysis>".
Proof. vm_compute. reflexivity. Qed.

Lemma invalid_source_short_circuits_witness :
  exists w',
    analyze_code_with Double.parse Double.dump
      (analyze Double.oracle_good Double.analyzer) "def test(:" [] =
      (Return (response "❌ Syntax Error"
                 "<analysis><error>Invalid Python Code</error></analysis>"),
       w')
    /\ w' = ([] ++ [received])%list
    /\ envelopes_built w' = envelopes_built []
    /\ oracle_calls w' = oracle_calls [].
Proof.
  apply (invalid_source_short_circuits Double.parse Double.dump
           (analyze Double.oracle_good Double.analyzer) "def test(:"
           (mk_exn SyntaxError "invalid syntax") []); reflexivity.
Defined.

Lemma analyze_normalizes_failure_witness :
  analyze Double.oracle_timeout Double.analyzer "<test_code>" [] =
    (Return "<analysis><error>Gemini API Failed: timed out</error></analysis>",
     [Generated "gemini-3-flash-preview" Double.prompt "<test_code>"])
  /\ is_error_document
       "<analysis><error>Gemini API Failed: timed out</error></analysis>".
Proof.
  apply (analyze_normalizes_failure Double.oracle_timeout Double.analyzer
           "<test_code>" [] (mk_exn TimeoutError "timed out")).
  reflexivity.
Defined.

Lemma missing_credential_is_fatal_witness :
  AAAAnalyzer_init Double.prompt None "gemini-3-flash-preview" [] =
    (Raise (mk_exn ValueError "API Key is required for AAAAnalyzer"), [])
  /\ startup Double.prompt ∅ [] =
    (Raise (mk_exn ValueError "❌ No API Key found! Check your .env file."),
     []).
Proof.
  apply (missing_credential_is_fatal Double.prompt None
           "gemini-3-flash-preview" ∅ []); [left |]; reflexivity.
Defined.

Lemma response_record_shape_witness :
  exists status body w',
    analyze_code_with Double.parse Double.dump
      (analyze Double.oracle_good Double.analyzer) "x = 1" [] =
      (Return (response status body), w')
    /\ dom (response status body)
       = ({[ "message"; "analysis_result" ]} : gset string)
    /\ size (response status body) = 2
    /\ response status body !! "message" = Some status
    /\ response status body !! "analysis_result" = Some body
    /\ NoDup statuses
    /\ status ∈ statuses
    /\ ((status = "❌ Syntax Error"
         /\ body = "<analysis><error>Invalid Python Code</error></analysis>")
        \/ (status = "✅ Analysis Complete"
            /\ exists payload w1,
                 fst (analyze Double.oracle_good Double.analyzer payload w1)
                 = Return body)
        \/ (status = "❌ Analysis Failed"
            /\ exists payload w1 e,
                 fst (analyze Double.oracle_good Double.analyzer payload w1)
                 = Raise e
                 /\ body = "Error: " +:+ exn_str e)).
Proof.
  apply (response_record_shape Double.parse Double.dump
           (analyze Double.oracle_good Double.analyzer) "x = 1" []).
  intros e He. vm_compute in He. discriminate He.
Defined.

Lemma error_reports_share_schema_witness :
  exists rep1 rep2 r2,
    fst (analyze_code Double.parse Double.dump Double.oracle_timeout
           Double.analyzer "def test(:" []) = Return rep1
    /\ fst (analyze_code Double.parse Double.dump Double.oracle_timeout
              Double.analyzer "x = 1" []) = Return rep2
    /\ rep1 !! "analysis_result"
       = Some "<analysis><error>Invalid Python Code</error></analysis>"
    /\ rep2 !! "analysis_result" = Some r2
    /\ is_error_document
         "<analysis><error>Invalid Python Code</error></analysis>"
    /\ is_error_document r2
    /\ dom rep1 = dom rep2
    /\ rep1 !! "message" = Some "❌ Syntax Error"
    /\ rep2 !! "message" = Some "✅ Analysis Complete"
    /\ rep1 !! "message" <> rep2 !! "message".
Proof.
  apply (error_reports_share_schema Double.parse Double.dump
           Double.oracle_timeout Double.analyzer "def test(:" "x = 1"
           Double.dump_of_assign (mk_exn SyntaxError "invalid syntax")
           (mk_exn TimeoutError "timed out") [] []); reflexivity.
Defined.

(** C2, as the specification words it, fails on the request
    [def test(:]: the record returned has no field [status] and no field
    [result], and its status text is none of the three the specification
    lists. *)
Lemma response_fields_are_not_status_result :
  exists rep w',
    analyze_code Double.parse Double.dump Double.oracle_good Double.analyzer
      "def test(:" [] = (Return rep, w')
    /\ rep !! "status" = None
    /\ rep !! "result" = None
    /\ rep !! "message" = Some "❌ Syntax Error"
    /\ ("❌ Syntax Error" ∉ spec_statuses)
    /\ ~ spec_response_shape rep.
Proof.
  eexists _, _. split; [reflexivity |].
  assert (Hstatus : response "❌ Syntax Error"
                      (error_document "Invalid Python Code") !! "status"
                    = None) by (vm_compute; reflexivity).
  split; [exact Hstatus |]. split; [vm_compute; reflexivity |].
  split; [vm_compute; reflexivity |]. split.
  - unfold spec_statuses. rewrite !elem_of_cons, elem_of_nil.
    intros H. decompose [or] H; discriminate || contradiction.
  - intros [_ (s & _ & Hs)]. unfold analyze_code in Hs.
    change (response "❌ Syntax Error"
              (error_document "Invalid Python Code") !! "status" = Some s)
      in Hs. rewrite Hstatus in Hs. discriminate Hs.
Qed.

(** C7, as stated, fails when structural extraction raises something other
    than [SyntaxError]: on [deep_negation] the parser raises [MemoryError],
    which the endpoint does not catch, so no report is returned. *)
Lemma deep_source_escapes_dispatch :
  analyze_code Double.parse Double.dump Double.oracle_good Double.analyzer
    Double.deep_negation [] =
    (Raise (mk_exn MemoryError
              "Parser stack overflowed - Python source too complex to parse"),
     [received])
  /\ ~ (exists rep w',
           analyze_code Double.parse Double.dump Double.oracle_good
             Double.analyzer Double.deep_negation [] = (Return rep, w')).
Proof.
  assert (Hrun : analyze_code Double.parse Double.dump Double.oracle_good
                   Double.analyzer Double.deep_negation [] =
                 (Raise (mk_exn MemoryError
                    "Parser stack overflowed - Python source too complex to parse"),
                  [received])) by (vm_compute; reflexivity).
  split; [exact Hrun |]. intros (rep & w' & H). rewrite Hrun in H.
  discriminate H.
Qed.

(** ** Further properties of the two modules *)

Lemma reverse_involutive (s : string) : reverse (reverse s) = s.
Proof.
  induction s as [| c s IH]; [reflexivity |].
  cbn [reverse]. now rewrite reverse_append, IH.
Qed.

Lemma append_cancel_r (s s' t : string) : s +:+ t = s' +:+ t -> s = s'.
Proof.
  intros H. apply (f_equal reverse) in H. rewrite !reverse_append in H.
  apply String.app_inj in H.
  now rewrite <- (reverse_involutive s), H, reverse_involutive.
Qed.

Lemma append_not_nil_r (s t : string) :
  t <> EmptyString -> s +:+ t <> s.
Proof.
  intros Ht H. induction s as [| c s IH].
  - now rewrite append_nil_l in H.
  - rewrite append_cons in H. injection H as H. exact (IH H).
Qed.

Section Further.

Context {AST : Type}.
Context (ast_parse : string -> result AST).
Context (ast_dump : AST -> nat -> result string).
Context (remote : world -> GenerativeModel -> string ->
                  result GenerateContentResponse).
Context (SYSTEM_PROMPT : string).

Local Abbreviation extract' := (extract ast_parse ast_dump).
Local Abbreviation analyze_code_with' := (analyze_code_with ast_parse ast_dump).
Local Abbreviation analyze_code' := (analyze_code ast_parse ast_dump remote).
Local Abbreviation received := (Printed "Received code for analysis...").
Local Abbreviation sent self contents :=
  (Generated (model_name (model self)) (system_instruction (model self))
             contents).
Local Abbreviation deployed :=
  {| model := {| model_name := "gemini-3-flash-preview";
                 system_instruction := SYSTEM_PROMPT |} |}.

(** *** Start-up *)

(** X1: with any non-empty credential in the environment (blank ones
    included: the guard tests emptiness only), start-up passes both guards,
    configures the backend once with that credential, and yields a client
    bound to the model [gemini-3-flash-preview] and to the system prompt. *)
Theorem startup_configures_client (environ : gmap string string)
    (c : ascii) (key : string) (w : world) :
  environ !! "GEMINI_API_KEY" = Some (String c key) ->
  startup SYSTEM_PROMPT environ w =
    (Return deployed, (w ++ [Configured (String c key)])%list).
Proof. intros Henv. unfold startup. rewrite Henv. reflexivity. Qed.

(** X2: start-up fails in one way only: with the server's own message,
    when the credential is absent or empty, and before anything is
    configured.  The guard of the constructor never fires under
    [startup]. *)
Theorem startup_fails_only_without_key (environ : gmap string string)
    (w w' : world) (e : exn) :
  startup SYSTEM_PROMPT environ w = (Raise e, w') ->
  e = mk_exn ValueError "❌ No API Key found! Check your .env file."
  /\ w' = w
  /\ (environ !! "GEMINI_API_KEY" = None
      \/ environ !! "GEMINI_API_KEY" = Some EmptyString).
Proof.
  unfold startup.
  destruct (environ !! "GEMINI_API_KEY") as [[| c key] |]; cbn.
  - intros [= <- <-]. auto.
  - discriminate.
  - intros [= <- <-]. auto.
Qed.

(** *** One request, end to end *)

(** X3: when the source parses and the remote call answers with a text,
    the endpoint returns that text unchanged under "Analysis Complete",
    having printed its log line, built one envelope from the source and its
    dump, and sent exactly that envelope once. *)
Theorem oracle_text_passes_through (analyzer : AAAAnalyzer)
    (code ast_string s : string) (w : world) :
  extract' code = Return ast_string ->
  remote_text remote
    ((w ++ [received]) ++ [Formatted (formatted_input code ast_string)])%list
    (model analyzer) (formatted_input code ast_string) = Return s ->
  analyze_code' analyzer code w =
    (Return (response "✅ Analysis Complete" s),
     (w ++ [ received;
             Formatted (formatted_input code ast_string);
             sent analyzer (formatted_input code ast_string) ])%list)
  /\ response "✅ Analysis Complete" s !! "analysis_result" = Some s.
Proof.
  intros Hextract Hremote. rewrite analyze_code_eq, Hextract. cbv zeta.
  rewrite Hremote, response_lookup_result, <- !app_assoc. auto.
Qed.

(** X4: whatever the source and whatever the remote does, a request
    appends to the trace and never rewrites it: its log line first, and
    then either nothing (structural extraction raised) or one envelope
    followed by one remote call carrying that same envelope.  So there is
    at most one remote call per request, none without an envelope, and no
    retry. *)
Theorem request_trace_shape (analyzer : AAAAnalyzer) (code : string)
    (w : world) :
  ((exists e, extract' code = Raise e)
   /\ snd (analyze_code' analyzer code w) = (w ++ [received])%list)
  \/ ((exists ast_string, extract' code = Return ast_string)
      /\ exists payload,
           snd (analyze_code' analyzer code w) =
             (w ++ [received; Formatted payload; sent analyzer payload])%list
           /\ oracle_calls (snd (analyze_code' analyzer code w)) =
              (oracle_calls w ++ [payload])%list).
Proof.
  rewrite analyze_code_eq. destruct (extract' code) as [d | e].
  - right. split; [eauto |]. exists (formatted_input code d).
    cbv zeta. cbn [snd]. rewrite <- !app_assoc. split; [reflexivity |].
    rewrite oracle_calls_app. reflexivity.
  - left. split; [eauto | reflexivity].
Qed.

(** X5: the contract is bound at start-up and reused as it is: every
    remote call made for a request by the client that [startup] returned
    is made on the model [gemini-3-flash-preview] with the system prompt. *)
Theorem requests_use_bound_contract (environ : gmap string string)
    (analyzer : AAAAnalyzer) (w0 w1 : world) (code : string) (w : world) :
  startup SYSTEM_PROMPT environ w0 = (Return analyzer, w1) ->
  exists events,
    snd (analyze_code' analyzer code w) = (w ++ events)%list
    /\ Forall (bound_to "gemini-3-flash-preview" SYSTEM_PROMPT) events.
Proof.
  intros Hstart. assert (Hbound : analyzer = deployed).
  { unfold startup in Hstart.
    destruct (environ !! "GEMINI_API_KEY") as [[| c key] |];
      cbn in Hstart; try discriminate Hstart.
    now injection Hstart as <- _. }
  subst analyzer. rewrite analyze_code_eq.
  destruct (extract' code) as [d | e].
  - eexists. cbv zeta. cbn [snd]. rewrite <- !app_assoc.
    split; [reflexivity |]. repeat constructor.
  - eexists. split; [reflexivity |]. repeat constructor.
Qed.

(** *** The failure texts *)

(** X6: when the oracle client itself raises, the endpoint answers
    "Analysis Failed" with the text ["Error: "] followed by [str(e)]; this
    body is plain text, not an [<analysis><error>] document, so the
    endpoint has a second shape of error body. *)
Theorem dispatcher_failure_body_is_plain_text
    (analyzer_analyze : string -> M string) (code ast_string : string)
    (e : exn) (w w' : world) :
  extract' code = Return ast_string ->
  analyzer_analyze (formatted_input code ast_string)
    ((w ++ [received]) ++ [Formatted (formatted_input code ast_string)])%list
    = (Raise e, w') ->
  analyze_code_with' analyzer_analyze code w =
    (Return (response "❌ Analysis Failed" ("Error: " +:+ exn_str e)), w')
  /\ ~ is_error_document ("Error: " +:+ exn_str e).
Proof.
  intros Hextract Hcall. rewrite analyze_code_with_eq, Hextract. cbv zeta.
  rewrite Hcall. split; [reflexivity |]. intros [body Hbody].
  discriminate Hbody.
Qed.

(** X7: the text [analyze] returns for a failed remote call keeps the
    failure description: two failures are reported by the same text only
    if their descriptions are the same; and no such text is the fixed
    document of the syntax-error report. *)
Theorem failure_text_keeps_description (self : AAAAnalyzer)
    (contents : string) (w1 w2 : world) (e1 e2 : exn) :
  remote_text remote w1 (model self) contents = Raise e1 ->
  remote_text remote w2 (model self) contents = Raise e2 ->
  (fst (analyze remote self contents w1)
   = fst (analyze remote self contents w2) -> exn_str e1 = exn_str e2)
  /\ fst (analyze remote self contents w1)
     <> Return "<analysis><error>Invalid Python Code</error></analysis>".
Proof.
  intros H1 H2. rewrite !analyze_eq, H1, H2. cbn [fst]. split.
  - intros [= H]. apply append_cancel_r in H. exact H.
  - discriminate.
Qed.

End Further.

(** *** The envelope as a function of its two texts *)

(** X8: for a fixed source the envelope determines the dump, and for a
    fixed dump it determines the source. *)
Theorem formatted_input_injective_each (code code' dump dump' : string) :
  (formatted_input code dump = formatted_input code dump' -> dump = dump')
  /\ (formatted_input code dump = formatted_input code' dump ->
      code = code').
Proof.
  unfold formatted_input. split; intros H.
  - do 12 apply String.app_inj in H. now apply append_cancel_r in H.
  - do 4 apply String.app_inj in H. now apply append_cancel_r in H.
Qed.

(** X9: the two texts are interpolated as they are, without escaping, so
    the envelope does not determine them jointly: a source that contains
    the text between the two sections yields the envelope of a shorter
    source with a longer dump. *)
Theorem formatted_input_boundary_not_unique (a b c : string) :
  formatted_input (a +:+ section_break +:+ b) c
  = formatted_input a (b +:+ section_break +:+ c)
  /\ a +:+ section_break +:+ b <> a.
Proof.
  split.
  - unfold formatted_input, section_break. now rewrite !append_assoc.
  - apply append_not_nil_r. discriminate.
Qed.

(** **** The further properties at the test doubles *)

Lemma startup_configures_client_witness :
  startup Double.prompt Double.environ_with_key [] =
    (Return Double.analyzer, [Configured "k-0"]).
Proof.
  apply (startup_configures_client Double.prompt Double.environ_with_key
           "k" "-0" []). reflexivity.
Defined.

Lemma startup_fails_only_without_key_witness :
  mk_exn ValueError "❌ No API Key found! Check your .env file."
  = mk_exn ValueError "❌ No API Key found! Check your .env file."
  /\ ([] : world) = []
  /\ ((∅ : gmap string string) !! "GEMINI_API_KEY" = None
      \/ (∅ : gmap string string) !! "GEMINI_API_KEY" = Some EmptyString).
Proof.
  apply (startup_fails_only_without_key Double.prompt ∅ [] []
           (mk_exn ValueError "❌ No API Key found! Check your .env file.")).
  reflexivity.
Defined.

Lemma oracle_text_passes_through_witness :
  analyze_code Double.parse Double.dump Double.oracle_good Double.analyzer
    "x = 1" [] =
    (Return (response "✅ Analysis Complete" Double.good_aaa),
     ([] ++ [ Printed "Received code for analysis...";
              Formatted (formatted_input "x = 1" Double.dump_of_assign);
              Generated "gemini-3-flash-preview" Double.prompt
                (formatted_input "x = 1" Double.dump_of_assign) ])%list)
  /\ response "✅ Analysis Complete" Double.good_aaa !! "analysis_result"
     = Some Double.good_aaa.
Proof.
  apply (oracle_text_passes_through Double.parse Double.dump
           Double.oracle_good Double.analyzer "x = 1" Double.dump_of_assign
           Double.good_aaa []); reflexivity.
Defined.

Lemma requests_use_bound_contract_witness :
  exists events,
    snd (analyze_code Double.parse Double.dump Double.oracle_good
           Double.analyzer "x = 1" []) = ([] ++ events)%list
    /\ Forall (bound_to "gemini-3-flash-preview" Double.prompt) events.
Proof.
  apply (requests_use_bound_contract Double.parse Double.dump
           Double.oracle_good Double.prompt Double.environ_with_key
           Double.analyzer [] [Configured "k-0"] "x = 1" []).
  reflexivity.
Defined.

Lemma dispatcher_failure_body_is_plain_text_witness :
  analyze_code_with Double.parse Double.dump Double.analyze_raising
    "x = 1" [] =
    (Return (response "❌ Analysis Failed" "Error: timed out"),
     [ Printed "Received code for analysis...";
       Formatted (formatted_input "x = 1" Double.dump_of_assign) ])
  /\ ~ is_error_document "Error: timed out".
Proof.
  apply (dispatcher_failure_body_is_plain_text Double.parse Double.dump
           Double.analyze_raising "x = 1" Double.dump_of_assign
           (mk_exn TimeoutError "timed out") []); reflexivity.
Defined.

Lemma failure_text_keeps_description_witness :
  (fst (analyze Double.oracle_timeout Double.analyzer "<test_code>" [])
   = fst (analyze Double.oracle_timeout Double.analyzer "<test_code>"
            [Printed "Received code for analysis..."]) ->
   "timed out" = "timed out")
  /\ fst (analyze Double.oracle_timeout Double.analyzer "<test_code>" [])
     <> Return "<analysis><error>Invalid Python Code</error></analysis>".
Proof.
  apply (failure_text_keeps_description Double.oracle_timeout Double.analyzer
           "<test_code>" [] [Printed "Received code for analysis..."]
           (mk_exn TimeoutError "timed out")
           (mk_exn TimeoutError "timed out")); reflexivity.
Defined.

Lemma length_append (s t : string) :
  String.length (s +:+ t) = String.length s + String.length t.
Proof.
  induction s as [| c s IH]; [reflexivity |].
  rewrite append_cons. cbn [String.length]. now rewrite IH.
Qed.

(** X10: the envelope is the source and the dump plus a fixed framing of
    156 characters (all of them ASCII), whatever the two texts are; in
    particular it is never empty. *)
Theorem formatted_input_length (code ast_string : string) :
  String.length (formatted_input code ast_string)
  = String.length code + String.length ast_string + 156.
Proof.
  unfold formatted_input. rewrite !length_append.
  change (String.length LF) with 1. cbn [String.length]. lia.
Qed.
